(** * Shallow embedding of [shasta_sdk.py]

    The module is a thin client over a REST API.  Every endpoint function
    builds a request descriptor and hands it to
    [handle_request_with_retries], which sends it, sleeps and retries on
    HTTP 429, and otherwise either returns the response or lets
    [response.raise_for_status()] raise.

    The HTTP server is modelled as a function [server := nat -> response]
    giving the response to the n-th request sent by one call (all requests
    of one call are identical, so the index is all that varies); this
    covers finite and infinite response sequences alike.  The observable
    side effects of a call are recorded in a trace of [event]s: the
    requests sent and the [time.sleep] calls.  The diagnostic [print] is
    not recorded. *)

From Stdlib Require Import ZArith String Ascii List Bool Lia.
Import ListNotations.

Open Scope string_scope.
Set Warnings "-register-all".

(** ** Python values used by the module *)

(** JSON-serialisable Python values: [None], [bool], [int], [str], [dict]. *)
Inductive json : Type :=
| JNull
| JBool (b : bool)
| JInt (z : Z)
| JStr (s : string)
| JObj (kvs : list (string * json)).

(** A Python [dict] with string keys, in insertion order. *)
Definition dict := list (string * json).

Fixpoint dict_get (k : string) (d : dict) : option json :=
  match d with
  | [] => None
  | (k', v) :: d' => if String.eqb k k' then Some v else dict_get k d'
  end.

(** [d[k] = v]: overwrite in place when [k] is present, append otherwise. *)
Fixpoint dict_set (k : string) (v : json) (d : dict) : dict :=
  match d with
  | [] => [(k, v)]
  | (k', v') :: d' =>
      if String.eqb k k' then (k', v) :: d' else (k', v') :: dict_set k v d'
  end.

Definition dict_keys (d : dict) : list string := map fst d.

(** Nested subscripting [j[k1][k2]...]. *)
Fixpoint json_path (path : list string) (j : json) : option json :=
  match path with
  | [] => Some j
  | k :: path' =>
      match j with
      | JObj kvs =>
          match dict_get k kvs with
          | Some j' => json_path path' j'
          | None => None
          end
      | _ => None
      end
  end.

(** Truthiness of an optional string ([None] or a [str]): [None] and [""]
    are falsy. *)
Definition py_truthy (q : option string) : bool :=
  match q with
  | None => false
  | Some s => negb (String.eqb s "")
  end.

(** [str(n)] for a Python [int]: decimal digits, with a leading ["-"]. *)
Fixpoint digits_of (fuel : nat) (n : Z) (acc : string) : string :=
  match fuel with
  | O => acc
  | S fuel' =>
      let acc' := String (ascii_of_nat (48 + Z.to_nat (n mod 10))) acc in
      if (n / 10 =? 0)%Z then acc' else digits_of fuel' (n / 10) acc'
  end.

Definition py_str_int (z : Z) : string :=
  let fuel := S (Z.to_nat (Z.log2 (Z.abs z))) in
  if (z <? 0)%Z then "-" ++ digits_of fuel (- z) "" else digits_of fuel z "".

(** ** Requests, responses and the trace *)

Record request := mk_request {
  method : string;
  url : string;
  headers : dict;
  params : option dict;
  body : option json
}.

Record response := mk_response {
  status_code : Z;
  content : json
}.

(** The response to the n-th request (from 0) of one call. *)
Definition server := nat -> response.

Inductive event : Type :=
| Request (r : request)
| Sleep (seconds : Z).

Fixpoint requests_sent (evs : list event) : nat :=
  match evs with
  | [] => O
  | Request _ :: evs' => S (requests_sent evs')
  | Sleep _ :: evs' => requests_sent evs'
  end.

Fixpoint sleeps (evs : list event) : list Z :=
  match evs with
  | [] => []
  | Request _ :: evs' => sleeps evs'
  | Sleep s :: evs' => s :: sleeps evs'
  end.

(** Exceptions that escape [handle_request_with_retries]:
    [requests.HTTPError] from [raise_for_status] (it carries the response),
    and the bare [Exception] raised when the retries run out. *)
Inductive exn : Type :=
| HTTPError (r : response)
| RetryExhausted.

Inductive outcome (A : Type) : Type :=
| Ok (a : A)
| Raised (e : exn).
Arguments Ok {A} a.
Arguments Raised {A} e.

(** [requests.Response.raise_for_status]: raises for [400 <= status < 500]
    (client error) and [500 <= status < 600] (server error), and does
    nothing for any other status. *)
Definition raise_for_status (r : response) : option exn :=
  let s := status_code r in
  if ((400 <=? s) && (s <? 500))%Z then Some (HTTPError r)
  else if ((500 <=? s) && (s <? 600))%Z then Some (HTTPError r)
  else None.

(** ** [handle_request_with_retries] *)

Definition MAX_RETRIES : nat := 5.
Definition RETRY_BACKOFF_FACTOR : Z := 2.

Section Retry.

Variable max_retries : nat.
Variable backoff_factor : Z.

(** The [while retries <= MAX_RETRIES] loop.  [retries] is the loop
    variable; every iteration either leaves the loop or increments it, so
    [S max_retries] iterations of [fuel] reach the point where the guard
    fails.  Running out of fuel is that same exit: the final [raise]. *)
Fixpoint retry_loop (fuel retries : nat) (req : request) (srv : server)
  : list event * outcome response :=
  match fuel with
  | O => ([], Raised RetryExhausted)
  | S fuel' =>
      if Nat.leb retries max_retries then
        let resp := srv retries in
        if (status_code resp =? 429)%Z then
          let wait_time := (backoff_factor ^ Z.of_nat retries)%Z in
          let '(evs, out) := retry_loop fuel' (S retries) req srv in
          (Request req :: Sleep wait_time :: evs, out)
        else
          match raise_for_status resp with
          | Some e => ([Request req], Raised e)
          | None => ([Request req], Ok resp)
          end
      else ([], Raised RetryExhausted)
  end.

Definition retrying_request (req : request) (srv : server)
  : list event * outcome response :=
  retry_loop (S max_retries) 0 req srv.

End Retry.

Definition handle_request_with_retries (req : request) (srv : server)
  : list event * outcome response :=
  retrying_request MAX_RETRIES RETRY_BACKOFF_FACTOR req srv.

(** The trace of [k] rate-limited attempts starting at attempt [r]. *)
Definition backoff_prefix (backoff_factor : Z) (req : request) (r k : nat)
  : list event :=
  flat_map (fun i => [Request req; Sleep (backoff_factor ^ Z.of_nat i)%Z])
           (seq r k).

(** Responses given as a list, padded with [200] beyond its end. *)
Definition server_of_list (codes : list Z) : server :=
  fun n => mk_response (nth n codes 200%Z) JNull.

(** ** Endpoint functions *)

Definition BASE_URL : string := "https://api-stg.shastacloud.com".
Definition MSP_ORG_ID : string := "317".
Definition BEARER_TOKEN : string := "your_bearer_token_here".

Definition HEADERS : dict :=
  [("Authorization", JStr ("Bearer " ++ BEARER_TOKEN));
   ("Content-Type", JStr "application/json")].

(** What the caller gets back: [response.json()] or [response.status_code]. *)
Inductive pyval : Type :=
| PJson (j : json)
| PInt (z : Z).

Definition return_json (res : list event * outcome response)
  : list event * outcome pyval :=
  let '(evs, out) := res in
  match out with
  | Ok resp => (evs, Ok (PJson (content resp)))
  | Raised e => (evs, Raised e)
  end.

Definition return_status_code (res : list event * outcome response)
  : list event * outcome pyval :=
  let '(evs, out) := res in
  match out with
  | Ok resp => (evs, Ok (PInt (status_code resp)))
  | Raised e => (evs, Raised e)
  end.

(** [get_business_orgs] *)
Definition get_business_orgs_request (offset limit : Z) (order order_by : string)
  : request :=
  mk_request "GET" (BASE_URL ++ "/organization/" ++ MSP_ORG_ID ++ "/child") HEADERS
    (Some [("offset", JInt offset); ("limit", JInt limit);
           ("order", JStr order); ("orderBy", JStr order_by)])
    None.

Definition get_business_orgs (offset limit : Z) (order order_by : string)
  (srv : server) : list event * outcome pyval :=
  return_json (handle_request_with_retries
                 (get_business_orgs_request offset limit order order_by) srv).

(** [create_business_org] *)
Definition create_business_org_request (org_display_name : string)
  (org_type_id parent_org_id : Z) (address : string) : request :=
  let payload :=
    JObj [("orgDisplayName", JStr org_display_name);
          ("orgTypeId", JInt org_type_id);
          ("parentOrgId", JInt parent_org_id);
          ("phone", JStr "");
          ("notes", JStr "");
          ("billingRecipients", JStr "");
          ("orgAddress", JObj [("addressLine", JStr address)]);
          ("billingAddress", JObj [("addressLine", JStr address)])] in
  mk_request "POST" (BASE_URL ++ "/organization") HEADERS None (Some payload).

Definition create_business_org (org_display_name : string)
  (org_type_id parent_org_id : Z) (address : string) (srv : server)
  : list event * outcome pyval :=
  return_json (handle_request_with_retries
    (create_business_org_request org_display_name org_type_id parent_org_id address)
    srv).

(** [find_business_org] *)
Definition find_business_org_request (search_query : string) (offset limit : Z)
  (order order_by : string) : request :=
  mk_request "GET" (BASE_URL ++ "/organization/" ++ MSP_ORG_ID ++ "/child") HEADERS
    (Some [("search", JStr search_query); ("offset", JInt offset);
           ("limit", JInt limit); ("order", JStr order);
           ("orderBy", JStr order_by)])
    None.

Definition find_business_org (search_query : string) (offset limit : Z)
  (order order_by : string) (srv : server) : list event * outcome pyval :=
  return_json (handle_request_with_retries
    (find_business_org_request search_query offset limit order order_by) srv).

(** [remove_business_org] *)
Definition remove_business_org_request (org_id : Z) : request :=
  mk_request "DELETE" (BASE_URL ++ "/organization/" ++ py_str_int org_id)
    HEADERS None None.

Definition remove_business_org (org_id : Z) (srv : server)
  : list event * outcome pyval :=
  return_status_code
    (handle_request_with_retries (remove_business_org_request org_id) srv).

(** [get_venues]: [search] is added only when [search_query] is truthy. *)
Definition get_venues_params (org_id offset limit : Z) (order order_by : string)
  (search_query : option string) : dict :=
  let params := [("orgId", JInt org_id); ("offset", JInt offset);
                 ("limit", JInt limit); ("order", JStr order);
                 ("orderBy", JStr order_by)] in
  match search_query with
  | Some q => if py_truthy search_query then dict_set "search" (JStr q) params
              else params
  | None => params
  end.

Definition get_venues_request (org_id offset limit : Z) (order order_by : string)
  (search_query : option string) : request :=
  mk_request "GET" (BASE_URL ++ "/venues") HEADERS
    (Some (get_venues_params org_id offset limit order order_by search_query))
    None.

Definition get_venues (org_id offset limit : Z) (order order_by : string)
  (search_query : option string) (srv : server) : list event * outcome pyval :=
  return_json (handle_request_with_retries
    (get_venues_request org_id offset limit order order_by search_query) srv).

(** [create_venue] *)
Definition create_venue_request (org_id : Z) (venue_name address : string)
  : request :=
  let payload :=
    JObj [("orgId", JInt org_id);
          ("parentVenueId", JInt 0);
          ("venueName", JStr venue_name);
          ("state", JInt 1);
          ("venueType", JInt 1);
          ("venueAddress", JObj [("addressLine", JStr address)]);
          ("shippingAddress", JObj [("addressLine", JStr address)])] in
  mk_request "POST" (BASE_URL ++ "/venues") HEADERS None (Some payload).

Definition create_venue (org_id : Z) (venue_name address : string) (srv : server)
  : list event * outcome pyval :=
  return_json (handle_request_with_retries
                 (create_venue_request org_id venue_name address) srv).

(** [remove_venue] *)
Definition remove_venue_request (venue_id : Z) : request :=
  mk_request "DELETE" (BASE_URL ++ "/venues/" ++ py_str_int venue_id)
    HEADERS None None.

Definition remove_venue (venue_id : Z) (srv : server)
  : list event * outcome pyval :=
  return_status_code
    (handle_request_with_retries (remove_venue_request venue_id) srv).

(** [get_infrastructure_by_org], [get_infrastructure_by_venue],
    [get_infra_types] *)
Definition get_infrastructure_by_org (org_id : Z) (srv : server)
  : list event * outcome pyval :=
  return_json (handle_request_with_retries
    (mk_request "GET" (BASE_URL ++ "/infrastructure/organization/" ++ py_str_int org_id)
       HEADERS None None) srv).

Definition get_infrastructure_by_venue (venue_id : Z) (srv : server)
  : list event * outcome pyval :=
  return_json (handle_request_with_retries
    (mk_request "GET" (BASE_URL ++ "/infrastructure/venue/" ++ py_str_int venue_id)
       HEADERS None None) srv).

Definition get_infra_types (srv : server) : list event * outcome pyval :=
  return_json (handle_request_with_retries
    (mk_request "GET" (BASE_URL ++ "/infrastructure/infratype") HEADERS
       (Some [("orgId", JStr MSP_ORG_ID)]) None) srv).

(** [add_infrastructure] *)
Definition add_infrastructure_request (org_id venue_id infra_type_id : Z)
  (mac_address infra_display_name : string) : request :=
  let payload :=
    JObj [("venueId", JInt venue_id);
          ("orgId", JInt org_id);
          ("infraTypeId", JInt infra_type_id);
          ("macAddress", JStr mac_address);
          ("serialNumber", JStr "");
          ("assetTag", JStr "");
          ("infraDisplayName", JStr infra_display_name);
          ("sourceId", JInt 1);
          ("realInfra", JBool false)] in
  mk_request "POST" (BASE_URL ++ "/infrastructure") HEADERS None (Some payload).

Definition add_infrastructure (org_id venue_id infra_type_id : Z)
  (mac_address infra_display_name : string) (srv : server)
  : list event * outcome pyval :=
  return_json (handle_request_with_retries
    (add_infrastructure_request org_id venue_id infra_type_id mac_address
       infra_display_name) srv).

(** [remove_infrastructure] *)
Definition remove_infrastructure_request (infra_id : Z) : request :=
  mk_request "DELETE" (BASE_URL ++ "/infrastructure/" ++ py_str_int infra_id)
    HEADERS None None.

Definition remove_infrastructure (infra_id : Z) (srv : server)
  : list event * outcome pyval :=
  return_status_code
    (handle_request_with_retries (remove_infrastructure_request infra_id) srv).

(** ** Sanity checks on concrete inputs *)

Example py_str_int_317 : py_str_int 317 = "317".
Proof. reflexivity. Qed.

Example py_str_int_neg : py_str_int (-40) = "-40".
Proof. reflexivity. Qed.

Example scenario_429_429_200 :
  handle_request_with_retries (remove_venue_request 7)
    (server_of_list [429; 429; 200]%Z)
  = ([Request (remove_venue_request 7); Sleep 1;
      Request (remove_venue_request 7); Sleep 2;
      Request (remove_venue_request 7)],
     Ok (mk_response 200 JNull)).
Proof. reflexivity. Qed.

(** ** General facts about the retry loop *)

Lemma requests_sent_app (xs ys : list event) :
  requests_sent (xs ++ ys)%list = (requests_sent xs + requests_sent ys)%nat.
Proof.
  induction xs as [|[r|w] xs IH]; simpl; auto.
Qed.

Lemma sleeps_app (xs ys : list event) :
  sleeps (xs ++ ys)%list = (sleeps xs ++ sleeps ys)%list.
Proof.
  induction xs as [|[r|w] xs IH]; simpl; f_equal; auto.
Qed.

Lemma backoff_prefix_succ (bf : Z) (req : request) (r k : nat) :
  backoff_prefix bf req r (S k)
  = Request req :: Sleep (bf ^ Z.of_nat r)%Z :: backoff_prefix bf req (S r) k.
Proof. reflexivity. Qed.

Lemma requests_sent_backoff_prefix (bf : Z) (req : request) (k : nat) :
  forall r, requests_sent (backoff_prefix bf req r k) = k.
Proof.
  induction k as [|k IH]; intro r; [reflexivity|].
  rewrite backoff_prefix_succ; simpl; now rewrite IH.
Qed.

Lemma sleeps_backoff_prefix (bf : Z) (req : request) (k : nat) :
  forall r, sleeps (backoff_prefix bf req r k)
            = map (fun i => (bf ^ Z.of_nat i)%Z) (seq r k).
Proof.
  induction k as [|k IH]; intro r; [reflexivity|].
  rewrite backoff_prefix_succ; simpl; now rewrite IH.
Qed.

Section LoopFacts.

Variables (mr : nat) (bf : Z) (req : request) (srv : server).

(** [k] consecutive 429 answers from attempt [r] on produce [k]
    request/sleep pairs and leave the loop at attempt [r + k]. *)
Lemma retry_loop_rate_limited (k : nat) :
  forall fuel r,
  (k <= fuel)%nat -> (r + k <= S mr)%nat ->
  (forall i, (r <= i < r + k)%nat -> status_code (srv i) = 429%Z) ->
  retry_loop mr bf fuel r req srv
  = let '(evs, out) := retry_loop mr bf (fuel - k) (r + k) req srv in
    ((backoff_prefix bf req r k ++ evs)%list, out).
Proof.
  induction k as [|k IH]; intros fuel r Hfuel Hr H429.
  - rewrite Nat.sub_0_r, Nat.add_0_r.
    destruct (retry_loop mr bf fuel r req srv); reflexivity.
  - destruct fuel as [|fuel]; [lia|].
    simpl retry_loop at 1.
    assert (Hle : Nat.leb r mr = true) by (apply Nat.leb_le; lia).
    rewrite Hle, (H429 r ltac:(lia)), Z.eqb_refl.
    rewrite (IH fuel (S r)) by (lia || (intros i Hi; apply H429; lia)).
    replace (S r + k)%nat with (r + S k)%nat by lia.
    simpl (S fuel - S k)%nat.
    destruct (retry_loop mr bf (fuel - k) (r + S k) req srv); reflexivity.
Qed.

(** The loop stops at the first answer that is not a 429. *)
Lemma retry_loop_other_status (fuel r : nat) :
  (r <= mr)%nat -> status_code (srv r) <> 429%Z ->
  retry_loop mr bf (S fuel) r req srv
  = ([Request req],
     match raise_for_status (srv r) with
     | Some e => Raised e
     | None => Ok (srv r)
     end).
Proof.
  intros Hr Hs; simpl.
  assert (Hle : Nat.leb r mr = true) by (apply Nat.leb_le; lia).
  rewrite Hle.
  destruct (Z.eqb_spec (status_code (srv r)) 429); [contradiction|].
  destruct (raise_for_status (srv r)); reflexivity.
Qed.

(** Every request the loop sends is [req]; it sends at most [fuel] of
    them; a returned response is neither a 429 nor an HTTP error; an
    [HTTPError] carries a 4xx/5xx status other than 429. *)
Lemma retry_loop_shape (fuel : nat) :
  forall r,
  let '(evs, out) := retry_loop mr bf fuel r req srv in
  (forall r', In (Request r') evs -> r' = req) /\
  (requests_sent evs <= fuel)%nat /\
  match out with
  | Ok resp =>
      status_code resp <> 429%Z /\
      ~ (400 <= status_code resp < 600)%Z
  | Raised (HTTPError resp) =>
      status_code resp <> 429%Z /\
      (400 <= status_code resp < 600)%Z
  | Raised RetryExhausted => True
  end.
Proof.
  induction fuel as [|fuel IH]; intro r; simpl.
  - repeat split; [intros r' []|simpl; lia].
  - destruct (Nat.leb r mr).
    2: { repeat split; [intros r' []|simpl; lia]. }
    destruct (Z.eqb_spec (status_code (srv r)) 429) as [H429|H429].
    + specialize (IH (S r)).
      destruct (retry_loop mr bf fuel (S r) req srv) as [evs out].
      destruct IH as (Hreq & Hn & Hout).
      repeat split; [|simpl; lia|exact Hout].
      intros r' [Heq|[Heq|Hin]]; [congruence|discriminate|auto].
    + unfold raise_for_status.
      destruct ((400 <=? status_code (srv r)) && (status_code (srv r) <? 500))%Z
        eqn:E1;
      [|destruct ((500 <=? status_code (srv r)) && (status_code (srv r) <? 600))%Z
          eqn:E2];
      repeat split; try (intros r' [Heq|[]]; congruence); simpl; try lia;
      repeat rewrite andb_true_iff in *; repeat rewrite andb_false_iff in *;
      repeat rewrite Z.leb_le in *; repeat rewrite Z.ltb_lt in *;
      repeat rewrite Z.leb_gt in *; repeat rewrite Z.ltb_ge in *; lia.
Qed.

End LoopFacts.

(** ** Claims about [handle_request_with_retries] *)

Section HandleFacts.

Variables (req : request) (srv : server).

Lemma handle_after_rate_limits (k : nat) :
  (k <= S MAX_RETRIES)%nat ->
  (forall i, (i < k)%nat -> status_code (srv i) = 429%Z) ->
  handle_request_with_retries req srv
  = let '(evs, out) :=
      retry_loop MAX_RETRIES RETRY_BACKOFF_FACTOR (S MAX_RETRIES - k) k req srv in
    ((backoff_prefix RETRY_BACKOFF_FACTOR req 0 k ++ evs)%list, out).
Proof.
  intros Hk H429.
  unfold handle_request_with_retries, retrying_request.
  apply (retry_loop_rate_limited MAX_RETRIES RETRY_BACKOFF_FACTOR req srv k
           (S MAX_RETRIES) 0); [lia|lia|].
  intros i Hi; apply H429; lia.
Qed.

End HandleFacts.

(** C1: when the first [k <= MAX_RETRIES] responses are 429 and the
    [k+1]-th is a 2xx success, [handle_request_with_retries] returns that
    response after exactly [k+1] requests and [k] sleeps, the [i]-th sleep
    lasting [RETRY_BACKOFF_FACTOR ^ i] seconds. *)
Theorem handle_success_after_k_rate_limits (req : request) (srv : server) (k : nat) :
  (k <= MAX_RETRIES)%nat ->
  (forall i, (i < k)%nat -> status_code (srv i) = 429%Z) ->
  (200 <= status_code (srv k) < 300)%Z ->
  handle_request_with_retries req srv
    = ((backoff_prefix RETRY_BACKOFF_FACTOR req 0 k ++ [Request req])%list,
       Ok (srv k)) /\
  requests_sent (fst (handle_request_with_retries req srv)) = S k /\
  sleeps (fst (handle_request_with_retries req srv))
    = map (fun i => (RETRY_BACKOFF_FACTOR ^ Z.of_nat i)%Z) (seq 0 k).
Proof.
  intros Hk H429 H2xx.
  assert (Heq : handle_request_with_retries req srv
                = ((backoff_prefix RETRY_BACKOFF_FACTOR req 0 k ++ [Request req])%list,
                   Ok (srv k))).
  { rewrite (handle_after_rate_limits req srv k) by (auto; lia).
    replace (S MAX_RETRIES - k)%nat with (S (MAX_RETRIES - k)) by lia.
    rewrite retry_loop_other_status by lia.
    unfold raise_for_status.
    replace ((400 <=? status_code (srv k)) && (status_code (srv k) <? 500))%Z
      with false by (symmetry; apply andb_false_iff; left; apply Z.leb_gt; lia).
    replace ((500 <=? status_code (srv k)) && (status_code (srv k) <? 600))%Z
      with false by (symmetry; apply andb_false_iff; left; apply Z.leb_gt; lia).
    reflexivity. }
  rewrite Heq; simpl fst.
  rewrite requests_sent_app, sleeps_app, requests_sent_backoff_prefix,
    sleeps_backoff_prefix; simpl.
  split; [reflexivity|split; [lia|apply app_nil_r]].
Qed.

(** The spec's scenario: responses [429, 429, 200] with [MAX_RETRIES = 5]
    and [RETRY_BACKOFF_FACTOR = 2] give sleeps of 1 and 2 seconds, three
    requests, and success. *)
Lemma handle_success_after_k_rate_limits_witness :
  (2 <= MAX_RETRIES)%nat /\
  (forall i, (i < 2)%nat ->
     status_code (server_of_list [429; 429; 200]%Z i) = 429%Z) /\
  (200 <= status_code (server_of_list [429; 429; 200]%Z 2%nat) < 300)%Z /\
  sleeps (fst (handle_request_with_retries (remove_venue_request 7)
                 (server_of_list [429; 429; 200]%Z))) = [1; 2]%Z /\
  requests_sent (fst (handle_request_with_retries (remove_venue_request 7)
                 (server_of_list [429; 429; 200]%Z))) = 3%nat /\
  snd (handle_request_with_retries (remove_venue_request 7)
         (server_of_list [429; 429; 200]%Z)) = Ok (mk_response 200 JNull).
Proof.
  assert (H429 : forall i, (i < 2)%nat ->
            status_code (server_of_list [429; 429; 200]%Z i) = 429%Z).
  { intros i Hi; destruct i as [|[|i]]; [reflexivity|reflexivity|lia]. }
  assert (H200 : (200 <= status_code (server_of_list [429; 429; 200]%Z 2%nat) < 300)%Z).
  { simpl; lia. }
  destruct (handle_success_after_k_rate_limits (remove_venue_request 7)
              (server_of_list [429; 429; 200]%Z) 2
              ltac:(unfold MAX_RETRIES; lia) H429 H200) as (Heq & Hn & Hs).
  split; [unfold MAX_RETRIES; lia|].
  split; [exact H429|]. split; [exact H200|].
  split; [rewrite Hs; reflexivity|].
  split; [exact Hn|].
  rewrite Heq; reflexivity.
Defined.

(** C2: when each of the first [MAX_RETRIES + 1] responses is a 429,
    [handle_request_with_retries] raises the retry-exhausted [Exception]
    after exactly [MAX_RETRIES + 1] requests, and sends nothing more. *)
Theorem handle_retry_exhausted (req : request) (srv : server) :
  (forall i, (i <= MAX_RETRIES)%nat -> status_code (srv i) = 429%Z) ->
  handle_request_with_retries req srv
    = (backoff_prefix RETRY_BACKOFF_FACTOR req 0 (S MAX_RETRIES),
       Raised RetryExhausted) /\
  requests_sent (fst (handle_request_with_retries req srv)) = S MAX_RETRIES.
Proof.
  intros H429.
  assert (Heq : handle_request_with_retries req srv
                = (backoff_prefix RETRY_BACKOFF_FACTOR req 0 (S MAX_RETRIES),
                   Raised RetryExhausted)).
  { rewrite (handle_after_rate_limits req srv (S MAX_RETRIES))
      by (auto; intros i Hi; apply H429; lia).
    rewrite Nat.sub_diag; cbn -[backoff_prefix].
    now rewrite app_nil_r. }
  split; [exact Heq|].
  rewrite Heq; apply requests_sent_backoff_prefix.
Qed.

Lemma handle_retry_exhausted_witness :
  (forall i, (i <= MAX_RETRIES)%nat ->
     status_code (server_of_list (repeat 429%Z 6) i) = 429%Z) /\
  requests_sent (fst (handle_request_with_retries (remove_venue_request 7)
                   (server_of_list (repeat 429%Z 6)))) = 6%nat.
Proof.
  assert (H : forall i, (i <= MAX_RETRIES)%nat ->
            status_code (server_of_list (repeat 429%Z 6) i) = 429%Z).
  { intros i Hi; unfold MAX_RETRIES in Hi.
    do 6 (destruct i as [|i]; [reflexivity|]); lia. }
  split; [exact H|].
  exact (proj2 (handle_retry_exhausted (remove_venue_request 7) _ H)).
Defined.

(** C3: the comment on [response.raise_for_status()] says non-200
    statuses raise, but [raise_for_status] only raises for 4xx/5xx: a
    [304 Not Modified] answer, neither 2xx nor 429, is returned by
    [handle_request_with_retries] instead of raising an [HTTPError]. *)
Lemma handle_non_2xx_counterexample :
  snd (handle_request_with_retries (remove_venue_request 7) (server_of_list [304%Z]))
    = Ok (mk_response 304 JNull) /\
  (forall resp, snd (handle_request_with_retries (remove_venue_request 7)
                       (server_of_list [304%Z])) <> Raised (HTTPError resp)).
Proof.
  split; [reflexivity|].
  intros resp; vm_compute; discriminate.
Qed.

Section Exhaustion.

Variables (mr : nat) (bf : Z) (req : request) (srv : server).

(** The loop only gives up after using all its iterations. *)
Lemma retry_loop_exhausted_count (fuel : nat) :
  forall r, (r + fuel = S mr)%nat ->
  snd (retry_loop mr bf fuel r req srv) = Raised RetryExhausted ->
  requests_sent (fst (retry_loop mr bf fuel r req srv)) = fuel.
Proof.
  induction fuel as [|fuel IH]; intros r Hr Hout; [reflexivity|].
  simpl retry_loop in *.
  assert (Hle : Nat.leb r mr = true) by (apply Nat.leb_le; lia).
  rewrite Hle in *.
  destruct (status_code (srv r) =? 429)%Z.
  - specialize (IH (S r) ltac:(lia)).
    destruct (retry_loop mr bf fuel (S r) req srv) as [evs out].
    simpl in *; f_equal; auto.
  - unfold raise_for_status in Hout.
    destruct ((400 <=? status_code (srv r)) && (status_code (srv r) <? 500))%Z;
    [|destruct ((500 <=? status_code (srv r)) && (status_code (srv r) <? 600))%Z];
    discriminate.
Qed.

End Exhaustion.

(** C4: for every (finite or infinite) sequence of responses, a call of
    [handle_request_with_retries] terminates (it is a total function here)
    after at most [MAX_RETRIES + 1] requests, and ends in one of three
    ways: it returns a response that is neither a 429 nor an HTTP error, it
    raises an [HTTPError] for a 4xx/5xx status other than 429, or it raises
    the retry-exhausted exception after exactly [MAX_RETRIES + 1]
    requests. *)
Theorem handle_bounded_requests (req : request) (srv : server) :
  let '(evs, out) := handle_request_with_retries req srv in
  (requests_sent evs <= S MAX_RETRIES)%nat /\
  (forall r, In (Request r) evs -> r = req) /\
  match out with
  | Ok resp =>
      status_code resp <> 429%Z /\ ~ (400 <= status_code resp < 600)%Z
  | Raised (HTTPError resp) =>
      status_code resp <> 429%Z /\ (400 <= status_code resp < 600)%Z
  | Raised RetryExhausted => requests_sent evs = S MAX_RETRIES
  end.
Proof.
  pose proof (retry_loop_shape MAX_RETRIES RETRY_BACKOFF_FACTOR req srv
                (S MAX_RETRIES) 0) as Hshape.
  pose proof (retry_loop_exhausted_count MAX_RETRIES RETRY_BACKOFF_FACTOR req srv
                (S MAX_RETRIES) 0 eq_refl) as Hcount.
  unfold handle_request_with_retries, retrying_request.
  destruct (retry_loop MAX_RETRIES RETRY_BACKOFF_FACTOR (S MAX_RETRIES) 0 req srv)
    as [evs out].
  destruct Hshape as (Hreq & Hn & Hout).
  split; [exact Hn|]. split; [exact Hreq|].
  destruct out as [resp|[resp|]]; auto.
Qed.

(** ** Claims about the endpoint functions *)

(** Every request sent during one call is the call's request descriptor. *)
Lemma handle_sends_only (req : request) (srv : server) (r : request) :
  In (Request r) (fst (handle_request_with_retries req srv)) -> r = req.
Proof.
  pose proof (retry_loop_shape MAX_RETRIES RETRY_BACKOFF_FACTOR req srv
                (S MAX_RETRIES) 0) as Hshape.
  unfold handle_request_with_retries, retrying_request.
  destruct (retry_loop MAX_RETRIES RETRY_BACKOFF_FACTOR (S MAX_RETRIES) 0 req srv)
    as [evs out].
  apply Hshape.
Qed.

Lemma return_json_trace (res : list event * outcome response) :
  fst (return_json res) = fst res.
Proof. destruct res as [evs [resp|e]]; reflexivity. Qed.

Lemma return_status_code_trace (res : list event * outcome response) :
  fst (return_status_code res) = fst res.
Proof. destruct res as [evs [resp|e]]; reflexivity. Qed.

(** Subscripting the JSON body of a request. *)
Definition body_at (path : list string) (r : request) : option json :=
  match body r with
  | Some j => json_path path j
  | None => None
  end.

(** A server that answers every request with [200] and an empty body. *)
Definition ok_server : server := fun _ => mk_response 200 JNull.

(** C5: every request sent by [create_business_org] is a POST whose body
    has [orgAddress.addressLine] and [billingAddress.addressLine] equal to
    the given address, and empty [phone], [notes] and [billingRecipients]. *)
Theorem create_business_org_body (org_display_name : string)
  (org_type_id parent_org_id : Z) (address : string) (srv : server) (r : request) :
  In (Request r)
     (fst (create_business_org org_display_name org_type_id parent_org_id address srv)) ->
  method r = "POST" /\
  body_at ["orgAddress"; "addressLine"] r = Some (JStr address) /\
  body_at ["billingAddress"; "addressLine"] r = Some (JStr address) /\
  body_at ["phone"] r = Some (JStr "") /\
  body_at ["notes"] r = Some (JStr "") /\
  body_at ["billingRecipients"] r = Some (JStr "").
Proof.
  unfold create_business_org; rewrite return_json_trace.
  intros Hin; apply handle_sends_only in Hin; subst r.
  repeat split.
Qed.

(** The spec's scenario: "Acme", type 3, parent 317, "123 Main St". *)
Lemma create_business_org_body_witness :
  In (Request (create_business_org_request "Acme" 3 317 "123 Main St"))
     (fst (create_business_org "Acme" 3 317 "123 Main St" ok_server)) /\
  body_at ["orgAddress"; "addressLine"]
    (create_business_org_request "Acme" 3 317 "123 Main St")
  = Some (JStr "123 Main St") /\
  body_at ["billingAddress"; "addressLine"]
    (create_business_org_request "Acme" 3 317 "123 Main St")
  = Some (JStr "123 Main St").
Proof.
  assert (Hin : In (Request (create_business_org_request "Acme" 3 317 "123 Main St"))
                   (fst (create_business_org "Acme" 3 317 "123 Main St" ok_server))).
  { simpl; left; reflexivity. }
  destruct (create_business_org_body "Acme" 3 317 "123 Main St" ok_server _ Hin)
    as (_ & Horg & Hbill & _).
  split; [exact Hin|split; [exact Horg|exact Hbill]].
Defined.

(** C6: with no search query, every request sent by [get_venues] carries
    query parameters whose keys are exactly [orgId], [offset], [limit],
    [order], [orderBy], with no [search] key. *)
Theorem get_venues_no_search (org_id offset limit : Z) (order order_by : string)
  (srv : server) (r : request) :
  In (Request r) (fst (get_venues org_id offset limit order order_by None srv)) ->
  option_map dict_keys (params r) = Some ["orgId"; "offset"; "limit"; "order"; "orderBy"] /\
  option_map (dict_get "search") (params r) = Some None.
Proof.
  unfold get_venues; rewrite return_json_trace.
  intros Hin; apply handle_sends_only in Hin; subst r.
  split; reflexivity.
Qed.

(** The spec's scenario: venues of org 42 with the default arguments. *)
Lemma get_venues_no_search_witness :
  In (Request (get_venues_request 42 0 10 "DESC" "venueId" None))
     (fst (get_venues 42 0 10 "DESC" "venueId" None ok_server)) /\
  option_map (dict_get "search")
    (params (get_venues_request 42 0 10 "DESC" "venueId" None)) = Some None.
Proof.
  assert (Hin : In (Request (get_venues_request 42 0 10 "DESC" "venueId" None))
                   (fst (get_venues 42 0 10 "DESC" "venueId" None ok_server))).
  { simpl; left; reflexivity. }
  split; [exact Hin|].
  exact (proj2 (get_venues_no_search 42 0 10 "DESC" "venueId" ok_server _ Hin)).
Defined.

(** C7: every request sent by [create_venue] is a POST whose body has
    [parentVenueId = 0], [state = 1], [venueType = 1] and the given
    address as [addressLine] of both [venueAddress] and [shippingAddress]. *)
Theorem create_venue_body (org_id : Z) (venue_name address : string)
  (srv : server) (r : request) :
  In (Request r) (fst (create_venue org_id venue_name address srv)) ->
  method r = "POST" /\
  body_at ["parentVenueId"] r = Some (JInt 0) /\
  body_at ["state"] r = Some (JInt 1) /\
  body_at ["venueType"] r = Some (JInt 1) /\
  body_at ["venueAddress"; "addressLine"] r = Some (JStr address) /\
  body_at ["shippingAddress"; "addressLine"] r = Some (JStr address).
Proof.
  unfold create_venue; rewrite return_json_trace.
  intros Hin; apply handle_sends_only in Hin; subst r.
  repeat split.
Qed.

Lemma create_venue_body_witness :
  In (Request (create_venue_request 42 "HQ" "1 Loop Rd"))
     (fst (create_venue 42 "HQ" "1 Loop Rd" ok_server)) /\
  body_at ["shippingAddress"; "addressLine"]
    (create_venue_request 42 "HQ" "1 Loop Rd") = Some (JStr "1 Loop Rd").
Proof.
  assert (Hin : In (Request (create_venue_request 42 "HQ" "1 Loop Rd"))
                   (fst (create_venue 42 "HQ" "1 Loop Rd" ok_server))).
  { simpl; left; reflexivity. }
  split; [exact Hin|].
  destruct (create_venue_body 42 "HQ" "1 Loop Rd" ok_server _ Hin)
    as (_ & _ & _ & _ & _ & H); exact H.
Defined.

(** C8: when the underlying request succeeds with response [resp],
    [remove_business_org], [remove_venue] and [remove_infrastructure]
    return [resp.status_code] (a Python [int], not the parsed body), with
    the same trace; an exception passes through unchanged. *)
Theorem remove_returns_status_code (id : Z) (srv : server) :
  match handle_request_with_retries (remove_business_org_request id) srv with
  | (evs, Ok resp) => remove_business_org id srv = (evs, Ok (PInt (status_code resp)))
  | (evs, Raised e) => remove_business_org id srv = (evs, Raised e)
  end /\
  match handle_request_with_retries (remove_venue_request id) srv with
  | (evs, Ok resp) => remove_venue id srv = (evs, Ok (PInt (status_code resp)))
  | (evs, Raised e) => remove_venue id srv = (evs, Raised e)
  end /\
  match handle_request_with_retries (remove_infrastructure_request id) srv with
  | (evs, Ok resp) => remove_infrastructure id srv = (evs, Ok (PInt (status_code resp)))
  | (evs, Raised e) => remove_infrastructure id srv = (evs, Raised e)
  end.
Proof.
  unfold remove_business_org, remove_venue, remove_infrastructure.
  repeat split;
  match goal with
  | |- match ?h with _ => _ end => destruct h as [evs [resp|e]]; reflexivity
  end.
Qed.

(** C9: a remove call whose first answer is an error status [s] with
    [400 <= s < 600] other than 429 (e.g. 404 for a resource already
    removed) raises [HTTPError] carrying that response after exactly one
    request, without sleeping or retrying and without returning a status
    code; this holds for [remove_business_org], [remove_venue] and
    [remove_infrastructure]. *)
Theorem remove_missing_raises (id : Z) (srv : server) :
  (400 <= status_code (srv O) < 600)%Z ->
  status_code (srv O) <> 429%Z ->
  remove_business_org id srv
    = ([Request (remove_business_org_request id)], Raised (HTTPError (srv O))) /\
  remove_venue id srv
    = ([Request (remove_venue_request id)], Raised (HTTPError (srv O))) /\
  remove_infrastructure id srv
    = ([Request (remove_infrastructure_request id)], Raised (HTTPError (srv O))).
Proof.
  intros Hrange H429.
  assert (Hraise : forall req, handle_request_with_retries req srv
                               = ([Request req], Raised (HTTPError (srv O)))).
  { intro req; unfold handle_request_with_retries, retrying_request.
    rewrite retry_loop_other_status by (auto; lia).
    unfold raise_for_status.
    destruct (Z.leb_spec 400 (status_code (srv O)));
    destruct (Z.ltb_spec (status_code (srv O)) 500);
    destruct (Z.leb_spec 500 (status_code (srv O)));
    destruct (Z.ltb_spec (status_code (srv O)) 600);
    simpl; try reflexivity; lia. }
  unfold remove_business_org, remove_venue, remove_infrastructure.
  rewrite !Hraise; repeat split.
Qed.

Lemma remove_missing_raises_witness :
  (400 <= status_code (server_of_list [404%Z] O) < 600)%Z /\
  status_code (server_of_list [404%Z] O) <> 429%Z /\
  remove_venue 12 (server_of_list [404%Z])
    = ([Request (remove_venue_request 12)],
       Raised (HTTPError (mk_response 404 JNull))).
Proof.
  assert (H1 : (400 <= status_code (server_of_list [404%Z] O) < 600)%Z)
    by (simpl; lia).
  assert (H2 : status_code (server_of_list [404%Z] O) <> 429%Z)
    by (simpl; discriminate).
  split; [exact H1|]. split; [exact H2|].
  exact (proj1 (proj2 (remove_missing_raises 12 (server_of_list [404%Z]) H1 H2))).
Defined.

(** C10: [get_venues] tests [search_query] for truthiness: the falsy
    values of an optional string are exactly [None] and [""], and for each
    of them the query parameters have no [search] key, whereas
    [find_business_org] always sends [search], even for [""]. *)
Theorem search_param_truthiness (org_id offset limit : Z) (order order_by : string)
  (search_query : option string) (find_query : string) :
  (py_truthy search_query = false <->
   search_query = None \/ search_query = Some "") /\
  (py_truthy search_query = false ->
   option_map (dict_get "search")
     (params (get_venues_request org_id offset limit order order_by search_query))
   = Some None) /\
  option_map (dict_get "search")
    (params (find_business_org_request find_query offset limit order order_by))
  = Some (Some (JStr find_query)).
Proof.
  split; [|split].
  - destruct search_query as [s|]; simpl; [|tauto].
    destruct (String.eqb_spec s "") as [->|Hne]; simpl.
    + tauto.
    + split; [discriminate|intros [H|H]; [discriminate|congruence]].
  - destruct search_query as [s|]; simpl; [|reflexivity].
    intros Hf; rewrite Hf; reflexivity.
  - reflexivity.
Qed.

(** ** Further properties of the retry loop *)

(** Sum of a list of integers (Python's [sum]). *)
Definition sum_Z (xs : list Z) : Z := fold_right Z.add 0%Z xs.

Section LoopSchedule.

Variables (mr : nat) (bf : Z) (req : request) (srv : server).

(** Started with the full budget, the loop sleeps once per 429 answer:
    the answers [r], ..., [r + k - 1] are the 429s and the sleeps are
    [bf ^ r], ..., [bf ^ (r + k - 1)].  Unless it gives up, answer [r + k]
    is the non-429 one that ended the loop and one request more than the
    sleeps was sent; when it gives up, all [fuel] answers were 429 and the
    trace is the full back-off prefix. *)
Lemma retry_loop_schedule (fuel : nat) :
  forall r, (r + fuel = S mr)%nat ->
  let '(evs, out) := retry_loop mr bf fuel r req srv in
  exists k, (k <= fuel)%nat /\
    (forall i, (r <= i < r + k)%nat -> status_code (srv i) = 429%Z) /\
    sleeps evs = map (fun i => (bf ^ Z.of_nat i)%Z) (seq r k) /\
    match out with
    | Raised RetryExhausted =>
        k = fuel /\ evs = backoff_prefix bf req r fuel
    | _ => requests_sent evs = S k /\ status_code (srv (r + k)%nat) <> 429%Z
    end.
Proof.
  induction fuel as [|fuel IH]; intros r Hr.
  - exists O; simpl; repeat split; try reflexivity; lia.
  - simpl retry_loop.
    assert (Hle : Nat.leb r mr = true) by (apply Nat.leb_le; lia).
    rewrite Hle.
    destruct (Z.eqb_spec (status_code (srv r)) 429) as [H429|H429].
    + specialize (IH (S r) ltac:(lia)).
      destruct (retry_loop mr bf fuel (S r) req srv) as [evs out].
      destruct IH as (k & Hk & Hall & Hs & Hout).
      exists (S k); split; [lia|].
      split.
      { intros i Hi.
        destruct (Nat.eq_dec i r) as [->|Hne]; [exact H429|apply Hall; lia]. }
      split; [simpl; now rewrite Hs|].
      replace (r + S k)%nat with (S r + k)%nat by lia.
      destruct out as [resp|[resp|]]; simpl;
        [destruct Hout as [-> Hst]; auto
        |destruct Hout as [-> Hst]; auto
        |destruct Hout as [-> ->]; auto].
    + unfold raise_for_status.
      destruct ((400 <=? status_code (srv r)) && (status_code (srv r) <? 500))%Z;
      [|destruct ((500 <=? status_code (srv r)) && (status_code (srv r) <? 600))%Z];
      exists O; (split; [lia|split; [intros i Hi; lia|split; [reflexivity|]]]);
      rewrite Nat.add_0_r; auto.
Qed.

End LoopSchedule.

Lemma sum_pow2_seq (k : nat) :
  forall r, sum_Z (map (fun i => (2 ^ Z.of_nat i)%Z) (seq r k))
            = (2 ^ Z.of_nat (r + k) - 2 ^ Z.of_nat r)%Z.
Proof.
  induction k as [|k IH]; intro r; simpl.
  - rewrite Nat.add_0_r; lia.
  - unfold sum_Z in *; simpl; rewrite IH.
    replace (r + S k)%nat with (S r + k)%nat by lia.
    rewrite (Nat2Z.inj_succ r), Z.pow_succ_r by lia; lia.
Qed.

(** Every call of [handle_request_with_retries] sleeps once per 429
    answer it receives: if the first [k] answers are the 429s, the sleeps
    are [1, 2, 4, ..., 2 ^ (k - 1)] seconds, [k <= MAX_RETRIES + 1], so
    the total sleep is [2 ^ k - 1] and never more than 63 seconds.  When
    the call gives up, [k = MAX_RETRIES + 1]; otherwise answer [k] is the
    non-429 one that ended the call and exactly one request more than the
    sleeps was sent. *)
Theorem handle_sleep_schedule (req : request) (srv : server) :
  let '(evs, out) := handle_request_with_retries req srv in
  exists k, (k <= S MAX_RETRIES)%nat /\
    (forall i, (i < k)%nat -> status_code (srv i) = 429%Z) /\
    sleeps evs = map (fun i => (RETRY_BACKOFF_FACTOR ^ Z.of_nat i)%Z) (seq 0 k) /\
    sum_Z (sleeps evs) = (2 ^ Z.of_nat k - 1)%Z /\
    (sum_Z (sleeps evs) <= 63)%Z /\
    (out = Raised RetryExhausted -> k = S MAX_RETRIES) /\
    (out <> Raised RetryExhausted ->
       status_code (srv k) <> 429%Z /\ requests_sent evs = S k).
Proof.
  pose proof (retry_loop_schedule MAX_RETRIES RETRY_BACKOFF_FACTOR req srv
                (S MAX_RETRIES) 0 eq_refl) as H.
  unfold handle_request_with_retries, retrying_request.
  destruct (retry_loop MAX_RETRIES RETRY_BACKOFF_FACTOR (S MAX_RETRIES) 0 req srv)
    as [evs out].
  destruct H as (k & Hk & Hall & Hs & Hout).
  exists k; split; [exact Hk|].
  split; [intros i Hi; apply Hall; lia|].
  split; [exact Hs|].
  assert (Hsum : sum_Z (sleeps evs) = (2 ^ Z.of_nat k - 1)%Z).
  { rewrite Hs; unfold RETRY_BACKOFF_FACTOR; rewrite sum_pow2_seq; simpl; lia. }
  split; [exact Hsum|]; split.
  { rewrite Hsum.
    assert (Hp : (2 ^ Z.of_nat k <= 2 ^ Z.of_nat (S MAX_RETRIES))%Z)
      by (apply Z.pow_le_mono_r; lia).
    simpl in Hp; lia. }
  destruct out as [resp|[resp|]];
    [destruct Hout as [Hn Hst]|destruct Hout as [Hn Hst]|destruct Hout as [Hk' _]];
    split; intros Hne; try discriminate; try contradiction; auto.
Qed.

(** The retry-exhausted exception is raised only when each of the
    [MAX_RETRIES + 1] answers was a 429; the call then sleeps even after
    the last request, so its trace ends with a 32-second sleep. *)
Theorem handle_exhausted_only_if_all_rate_limited (req : request) (srv : server) :
  snd (handle_request_with_retries req srv) = Raised RetryExhausted ->
  (forall i, (i <= MAX_RETRIES)%nat -> status_code (srv i) = 429%Z) /\
  fst (handle_request_with_retries req srv)
    = backoff_prefix RETRY_BACKOFF_FACTOR req 0 (S MAX_RETRIES) /\
  last (fst (handle_request_with_retries req srv)) (Request req) = Sleep 32.
Proof.
  pose proof (retry_loop_schedule MAX_RETRIES RETRY_BACKOFF_FACTOR req srv
                (S MAX_RETRIES) 0 eq_refl) as H.
  unfold handle_request_with_retries, retrying_request.
  destruct (retry_loop MAX_RETRIES RETRY_BACKOFF_FACTOR (S MAX_RETRIES) 0 req srv)
    as [evs out].
  simpl; intros ->.
  destruct H as (k & _ & Hall & _ & -> & Hevs).
  split; [intros i Hi; apply Hall; lia|].
  split; [exact Hevs|].
  rewrite Hevs; reflexivity.
Qed.

Lemma handle_exhausted_only_if_all_rate_limited_witness :
  snd (handle_request_with_retries (remove_venue_request 7)
         (server_of_list (repeat 429%Z 6))) = Raised RetryExhausted /\
  last (fst (handle_request_with_retries (remove_venue_request 7)
               (server_of_list (repeat 429%Z 6)))) (Request (remove_venue_request 7))
  = Sleep 32.
Proof.
  assert (H : snd (handle_request_with_retries (remove_venue_request 7)
                     (server_of_list (repeat 429%Z 6))) = Raised RetryExhausted)
    by reflexivity.
  split; [exact H|].
  exact (proj2 (proj2 (handle_exhausted_only_if_all_rate_limited
                         (remove_venue_request 7) _ H))).
Defined.

(** ** Further properties of the endpoint functions *)

(** Every request sent by a call uses HTTP method [m] and the module's
    [HEADERS] (bearer token, JSON content type), and carries a JSON body
    exactly when [m] is ["POST"]. *)
Definition sends_only (m : string) (res : list event * outcome pyval) : Prop :=
  forall r, In (Request r) (fst res) ->
    method r = m /\ headers r = HEADERS /\ (body r <> None <-> m = "POST").

Lemma sends_only_json (m : string) (req : request) (srv : server) :
  method req = m -> headers req = HEADERS -> (body req <> None <-> m = "POST") ->
  sends_only m (return_json (handle_request_with_retries req srv)).
Proof.
  intros Hm Hh Hb r Hin; rewrite return_json_trace in Hin.
  apply handle_sends_only in Hin; subst r; auto.
Qed.

Lemma sends_only_status (m : string) (req : request) (srv : server) :
  method req = m -> headers req = HEADERS -> (body req <> None <-> m = "POST") ->
  sends_only m (return_status_code (handle_request_with_retries req srv)).
Proof.
  intros Hm Hh Hb r Hin; rewrite return_status_code_trace in Hin.
  apply handle_sends_only in Hin; subst r; auto.
Qed.

Ltac sends_only_tac :=
  first [ apply sends_only_json | apply sends_only_status ]; simpl;
  [ reflexivity
  | reflexivity
  | split; intros H;
    first [ reflexivity | discriminate | now elim H | congruence ] ].

(** All twelve endpoint functions send only requests with their own HTTP
    method and the shared authorization headers: the list, search and
    fetch functions send [GET] without a body, the create/add functions
    [POST] with a JSON body, the remove functions [DELETE] without a body. *)
Theorem endpoints_methods_and_headers (srv : server)
  (id org_id venue_id infra_type_id offset limit : Z)
  (order order_by name address mac search : string) (q : option string) :
  sends_only "GET" (get_business_orgs offset limit order order_by srv) /\
  sends_only "POST" (create_business_org name infra_type_id org_id address srv) /\
  sends_only "GET" (find_business_org search offset limit order order_by srv) /\
  sends_only "DELETE" (remove_business_org id srv) /\
  sends_only "GET" (get_venues org_id offset limit order order_by q srv) /\
  sends_only "POST" (create_venue org_id name address srv) /\
  sends_only "DELETE" (remove_venue id srv) /\
  sends_only "GET" (get_infrastructure_by_org id srv) /\
  sends_only "GET" (get_infrastructure_by_venue id srv) /\
  sends_only "GET" (get_infra_types srv) /\
  sends_only "POST" (add_infrastructure org_id venue_id infra_type_id mac name srv) /\
  sends_only "DELETE" (remove_infrastructure id srv).
Proof.
  repeat match goal with |- _ /\ _ => split end; sends_only_tac.
Qed.

(** *** Ids in URLs

    The remove and fetch-by-id functions put [str(id)] into the URL path.
    [dec_value] reads a string of decimal digits back (Python's
    [int(s)] on such a string); it is used to show the path determines the
    id. *)

Fixpoint dec_value (s : string) (v : Z) : Z :=
  match s with
  | EmptyString => v
  | String c s' => dec_value s' (v * 10 + (Z.of_nat (nat_of_ascii c) - 48))%Z
  end.

Definition is_digit (c : ascii) : bool :=
  (48 <=? nat_of_ascii c)%nat && (nat_of_ascii c <=? 57)%nat.

Definition starts_with_digit (s : string) : bool :=
  match s with
  | EmptyString => false
  | String c _ => is_digit c
  end.

Lemma dec_value_app (s1 s2 : string) (v : Z) :
  dec_value (s1 ++ s2) v = dec_value s2 (dec_value s1 v).
Proof.
  revert v; induction s1 as [|c s1 IH]; intro v; simpl; auto.
Qed.

Lemma string_app_nil_r (s : string) : (s ++ "")%string = s.
Proof. induction s as [|c s IH]; simpl; congruence. Qed.

Lemma string_app_assoc (s1 s2 s3 : string) :
  (s1 ++ s2 ++ s3)%string = ((s1 ++ s2) ++ s3)%string.
Proof. induction s1 as [|c s1 IH]; simpl; congruence. Qed.

Lemma string_app_cancel_l (p a b : string) :
  (p ++ a)%string = (p ++ b)%string -> a = b.
Proof.
  induction p as [|c p IH]; simpl; auto.
  intros H; injection H; auto.
Qed.

Lemma starts_with_digit_app (s1 s2 : string) :
  starts_with_digit s1 = true -> starts_with_digit (s1 ++ s2) = true.
Proof. destruct s1; simpl; [discriminate|auto]. Qed.

Lemma digits_of_step (f : nat) (n : Z) (acc : string) :
  digits_of (S f) n acc
  = if (n / 10 =? 0)%Z
    then String (ascii_of_nat (48 + Z.to_nat (n mod 10))) acc
    else digits_of f (n / 10) (String (ascii_of_nat (48 + Z.to_nat (n mod 10))) acc).
Proof. reflexivity. Qed.

(** [digits_of] prepends the decimal digits of [n], given enough fuel. *)
Lemma digits_of_spec (f : nat) :
  forall n acc, (0 <= n < 2 ^ Z.of_nat (S f))%Z ->
  exists D, digits_of (S f) n acc = (D ++ acc)%string /\
    starts_with_digit D = true /\
    forall v, dec_value D v = (v * 10 ^ Z.of_nat (String.length D) + n)%Z.
Proof.
  induction f as [|f IH]; intros n acc Hn;
  pose proof (Z.div_mod n 10 ltac:(lia)) as Hdm;
  pose proof (Z.mod_pos_bound n 10 ltac:(lia)) as Hmod;
  set (d := ascii_of_nat (48 + Z.to_nat (n mod 10)));
  assert (Hd : nat_of_ascii d = (48 + Z.to_nat (n mod 10))%nat)
    by (apply nat_ascii_embedding; lia);
  assert (Hdd : is_digit d = true)
    by (unfold is_digit; rewrite Hd; apply andb_true_iff;
        split; apply Nat.leb_le; lia);
  rewrite digits_of_step; fold d; clearbody d;
  destruct (Z.eqb_spec (n / 10) 0) as [Hq|Hq].
  1, 3: exists (String d EmptyString); split; [reflexivity|];
        split; [exact Hdd|];
        intro v; cbn [dec_value String.length];
        rewrite Hd, Nat2Z.inj_add, Z2Nat.id by lia; lia.
  - assert (Hb : (2 ^ Z.of_nat 1 = 2)%Z) by reflexivity. lia.
  - destruct (IH (n / 10)%Z (String d acc)) as (D & HD & Hs & Hv).
    { split; [apply Z.div_pos; lia|].
      rewrite (Nat2Z.inj_succ (S f)), Z.pow_succ_r in Hn by lia; lia. }
    exists (D ++ String d EmptyString)%string.
    split; [rewrite HD, <- string_app_assoc; reflexivity|].
    split; [now apply starts_with_digit_app|].
    intro v; rewrite dec_value_app, Hv; cbn [dec_value].
    rewrite Hd, Nat2Z.inj_add, Z2Nat.id by lia.
    assert (Hlen : String.length (D ++ String d EmptyString)
                   = S (String.length D)).
    { clear. induction D as [|c D IH]; simpl; auto. }
    rewrite Hlen, (Nat2Z.inj_succ (String.length D)), Z.pow_succ_r by lia; lia.
Qed.

Lemma py_str_int_spec (z : Z) :
  exists D, starts_with_digit D = true /\
    dec_value D 0 = Z.abs z /\
    py_str_int z = if (z <? 0)%Z then ("-" ++ D)%string else D.
Proof.
  unfold py_str_int; cbv zeta.
  assert (Hlog := Z.log2_nonneg (Z.abs z)).
  set (f := Z.to_nat (Z.log2 (Z.abs z))).
  assert (Hb : (0 <= Z.abs z < 2 ^ Z.of_nat (S f))%Z).
  { unfold f; rewrite Nat2Z.inj_succ, Z2Nat.id by lia.
    destruct (Z.eq_dec z 0) as [->|Hz]; [simpl; lia|].
    pose proof (Z.log2_spec (Z.abs z) ltac:(lia)); lia. }
  destruct (digits_of_spec f (Z.abs z) "" Hb) as (D & HD & Hs & Hv).
  rewrite string_app_nil_r in HD.
  exists D; split; [exact Hs|]; split; [rewrite Hv; lia|].
  destruct (Z.ltb_spec z 0).
  - replace (- z)%Z with (Z.abs z) by lia; now rewrite HD.
  - replace z with (Z.abs z) at 1 by lia; now rewrite HD.
Qed.

(** [str] is injective on Python [int]s. *)
Lemma py_str_int_inj (z1 z2 : Z) : py_str_int z1 = py_str_int z2 -> z1 = z2.
Proof.
  destruct (py_str_int_spec z1) as (D1 & Hs1 & Hv1 & ->).
  destruct (py_str_int_spec z2) as (D2 & Hs2 & Hv2 & ->).
  destruct (Z.ltb_spec z1 0), (Z.ltb_spec z2 0); simpl; intros Heq.
  - injection Heq as ->; lia.
  - subst D2; discriminate Hs2.
  - subst D1; discriminate Hs1.
  - subst D2; lia.
Qed.

(** The URL of a remove call determines what it deletes: two remove calls
    of the same kind target the same URL exactly when their ids are equal
    (for negative ids too), and organization, venue and infrastructure
    removals never target the same URL. *)
Theorem remove_urls_identify_ids (id1 id2 : Z) :
  (url (remove_business_org_request id1) = url (remove_business_org_request id2)
     <-> id1 = id2) /\
  (url (remove_venue_request id1) = url (remove_venue_request id2) <-> id1 = id2) /\
  (url (remove_infrastructure_request id1) = url (remove_infrastructure_request id2)
     <-> id1 = id2) /\
  url (remove_business_org_request id1) <> url (remove_venue_request id2) /\
  url (remove_business_org_request id1) <> url (remove_infrastructure_request id2) /\
  url (remove_venue_request id1) <> url (remove_infrastructure_request id2).
Proof.
  unfold remove_business_org_request, remove_venue_request,
    remove_infrastructure_request; cbn [url].
  repeat split;
  try (intros ->; reflexivity);
  try (intros Heq; apply string_app_cancel_l in Heq;
       cbn [String.append] in Heq;
       repeat (injection Heq as Heq); apply py_str_int_inj; exact Heq);
  try (intros Heq; apply string_app_cancel_l in Heq;
       cbn [String.append] in Heq; discriminate Heq).
Qed.

(** Every request sent by [add_infrastructure] carries the caller's venue,
    organization, type, MAC address and display name, the fixed
    [sourceId = 1] and [realInfra = false], and empty [serialNumber] and
    [assetTag]. *)
Theorem add_infrastructure_body (org_id venue_id infra_type_id : Z)
  (mac_address infra_display_name : string) (srv : server) (r : request) :
  In (Request r) (fst (add_infrastructure org_id venue_id infra_type_id
                         mac_address infra_display_name srv)) ->
  url r = BASE_URL ++ "/infrastructure" /\
  body_at ["venueId"] r = Some (JInt venue_id) /\
  body_at ["orgId"] r = Some (JInt org_id) /\
  body_at ["infraTypeId"] r = Some (JInt infra_type_id) /\
  body_at ["macAddress"] r = Some (JStr mac_address) /\
  body_at ["infraDisplayName"] r = Some (JStr infra_display_name) /\
  body_at ["serialNumber"] r = Some (JStr "") /\
  body_at ["assetTag"] r = Some (JStr "") /\
  body_at ["sourceId"] r = Some (JInt 1) /\
  body_at ["realInfra"] r = Some (JBool false).
Proof.
  unfold add_infrastructure; rewrite return_json_trace.
  intros Hin; apply handle_sends_only in Hin; subst r.
  repeat split.
Qed.

Lemma add_infrastructure_body_witness :
  In (Request (add_infrastructure_request 317 9 4 "aa:bb:cc:dd:ee:ff" "AP-1"))
     (fst (add_infrastructure 317 9 4 "aa:bb:cc:dd:ee:ff" "AP-1" ok_server)) /\
  body_at ["realInfra"]
    (add_infrastructure_request 317 9 4 "aa:bb:cc:dd:ee:ff" "AP-1")
  = Some (JBool false).
Proof.
  assert (Hin : In (Request (add_infrastructure_request 317 9 4 "aa:bb:cc:dd:ee:ff" "AP-1"))
                   (fst (add_infrastructure 317 9 4 "aa:bb:cc:dd:ee:ff" "AP-1" ok_server))).
  { simpl; left; reflexivity. }
  split; [exact Hin|].
  destruct (add_infrastructure_body 317 9 4 "aa:bb:cc:dd:ee:ff" "AP-1" ok_server _ Hin)
    as (_ & _ & _ & _ & _ & _ & _ & _ & _ & H); exact H.
Defined.

(** With a truthy search query, [get_venues] sends the five base
    parameters in their order followed by [search] set to the query. *)
Theorem get_venues_with_search (org_id offset limit : Z) (order order_by q : string) :
  q <> "" ->
  params (get_venues_request org_id offset limit order order_by (Some q))
  = Some [("orgId", JInt org_id); ("offset", JInt offset); ("limit", JInt limit);
          ("order", JStr order); ("orderBy", JStr order_by); ("search", JStr q)].
Proof.
  intros Hq; unfold get_venues_request, get_venues_params; cbn [params py_truthy].
  apply String.eqb_neq in Hq; rewrite Hq; reflexivity.
Qed.

Lemma get_venues_with_search_witness :
  "Main" <> "" /\
  params (get_venues_request 42 0 10 "DESC" "venueId" (Some "Main"))
  = Some [("orgId", JInt 42); ("offset", JInt 0); ("limit", JInt 10);
          ("order", JStr "DESC"); ("orderBy", JStr "venueId");
          ("search", JStr "Main")].
Proof.
  assert (H : "Main" <> "") by discriminate.
  split; [exact H|].
  exact (get_venues_with_search 42 0 10 "DESC" "venueId" "Main" H).
Defined.
